(** * PEF decontamination efficacy dashboard (src/app.py)

    A shallow embedding of the Dash application: the module-level code that
    loads and cleans the spreadsheet and builds the layout, and the callback
    [update_bar_chart] that filters the cleaned table and draws the scatter
    plot with its trend line.

    Numbers are IEEE binary64 values, as in pandas' float64 columns and
    Python floats: the primitive [float] of the standard library.  A pandas
    Series is a list of values, a DataFrame a list of rows.  Module-level
    state (the global [df] and the values derived from it) is a record
    threaded through a small state-and-exception monad. *)

From Stdlib Require Import ZArith QArith Lqa List String Bool Lia Floats.
Import ListNotations.

#[local] Set Warnings "-inexact-float".
#[local] Open Scope string_scope.

(* ------------------------------------------------------------------ *)
(** * Exceptions and results *)

(** The Python exceptions the program can raise, and a constructor for a
    user-defined exception class given by its name. *)
Inductive exn : Type :=
| IndexError
| ValueError
| KeyError
| UserDefined (name : string).

Definition EmptyDatasetError : exn := UserDefined "EmptyDatasetError".

Inductive result (A : Type) : Type :=
| Ok (a : A)
| Raise (e : exn).
Arguments Ok {A} a.
Arguments Raise {A} e.

Definition result_bind {A B} (r : result A) (k : A -> result B) : result B :=
  match r with
  | Ok a => k a
  | Raise e => Raise e
  end.

Fixpoint mapM {A B} (f : A -> result B) (l : list A) : result (list B) :=
  match l with
  | [] => Ok []
  | a :: t =>
      result_bind (f a) (fun b =>
      result_bind (mapM f t) (fun bs => Ok (b :: bs)))
  end.

(** [xs[i]] on a Python list or a numpy array. *)
Definition getitem {A} (xs : list A) (i : nat) : result A :=
  match nth_error xs i with
  | Some a => Ok a
  | None => Raise IndexError
  end.

(* ------------------------------------------------------------------ *)
(** * binary64 rounding routines *)

Module Float64.

#[local] Open Scope Z_scope.

(** Nearest integer to [n / d], ties to the even integer
    ([0 <= n], [0 < d]). *)
Definition div_half_even (n d : Z) : Z :=
  let q := n / d in
  let r := n mod d in
  match 2 * r ?= d with
  | Lt => q
  | Gt => q + 1
  | Eq => if Z.even q then q else q + 1
  end.

(** The float of sign [s] and integer magnitude [k]; exact for
    [k < 2^53]. *)
Definition of_magnitude (s : bool) (k : Z) : float :=
  match k with
  | Zpos p => SF2Prim (S754_finite s p 0)
  | _ => SF2Prim (S754_zero s)
  end.

(** The float nearest to [k / 10] (ties to even), with sign [s]. *)
Definition of_tenths (s : bool) (k : Z) : float :=
  match k with
  | Zpos p =>
      SF2Prim (SFdiv prec emax (S754_finite s p 0) (S754_finite false 10 0))
  | _ => SF2Prim (S754_zero s)
  end.

(** C [rint] in the default rounding mode: the nearest integer, ties to
    even, computed on the exact value [m * 2^e] of the argument.  NaN,
    infinities, zeros and values with [0 <= e] (already integers) are
    returned unchanged. *)
Definition rint (x : float) : float :=
  match Prim2SF x with
  | S754_finite s m e =>
      if 0 <=? e then x
      else of_magnitude s (div_half_even (Zpos m) (2 ^ (- e)))
  | _ => x
  end.

(** Python's [round(x, 1)] on a float, which the callback applies to the
    two ends of the slider's range: the exact value of [x] is rounded to
    one decimal, ties to even, and the float nearest to that decimal is
    returned (CPython goes through a correctly rounded decimal string).
    NaN and infinities round to themselves. *)
Definition round1 (x : float) : float :=
  match Prim2SF x with
  | S754_finite s m e =>
      if 0 <=? e then x
      else of_tenths s (div_half_even (10 * Zpos m) (2 ^ (- e)))
  | _ => x
  end.

(** numpy's rounding to one decimal, which [Series.round(1)] applies to a
    float64 column and [round(v, 1)] to a [numpy.float64] scalar such as the
    result of [Series.min()].  As numpy documents it, the result is
    [true_divide(rint(a * 10), 10)]: scale by ten, [rint], scale back, each
    step a float operation with its own rounding. *)
Definition np_round1 (x : float) : float :=
  (rint (x * 10) / 10)%float.

(** Position of a float that is not NaN in the order of [<=?]: its class
    (infinities outermost, zeros in the middle), then exponent and mantissa,
    negated for negative floats; triples are compared lexicographically. *)
Definition rank (f : spec_float) : Z * Z * Z :=
  match f with
  | S754_infinity s => (if s then -2 else 2, 0, 0)
  | S754_finite s m e => if s then (-1, - e, - Zpos m) else (1, e, Zpos m)
  | _ => (0, 0, 0)
  end.

Definition rank_le (a b : Z * Z * Z) : Prop :=
  let '(c1, e1, m1) := a in
  let '(c2, e2, m2) := b in
  c1 < c2 \/ (c1 = c2 /\ (e1 < e2 \/ (e1 = e2 /\ m1 <= m2))).

(** Exact rational value of a finite float. *)
Definition to_Q (x : float) : option Q :=
  match Prim2SF x with
  | S754_zero _ => Some 0%Q
  | S754_finite s m e =>
      let v := if 0 <=? e
               then inject_Z (Zpos m * 2 ^ e)
               else Qmake (Zpos m) (Z.to_pos (2 ^ (- e))) in
      Some (if s then Qopp v else v)
  | _ => None
  end.

End Float64.

(* ------------------------------------------------------------------ *)
(** * pandas Series operations used by the program *)

Module Series.

#[local] Open Scope float_scope.

(** [s.notna()] on a float64 column: missing values are NaN. *)
Definition notna (x : float) : bool := negb (is_nan x).

(** [s.round(1)]. *)
Definition round (s : list float) : list float :=
  map Float64.np_round1 s.

(** One element of [s.between(left, right)] (both ends inclusive):
    [(s >= left) & (s <= right)]. *)
Definition between1 (left right x : float) : bool :=
  (left <=? x) && (x <=? right).

Definition between (s : list float) (left right : float) : list bool :=
  map (between1 left right) s.

(** One element of [s.isin(values)] on a column of strings. *)
Definition isin1 (values : list string) (x : string) : bool :=
  existsb (String.eqb x) values.

Definition isin (s : list string) (values : list string) : list bool :=
  map (isin1 values) s.

(** Element-wise [&] of two boolean masks. *)
Fixpoint mask_and (a b : list bool) : list bool :=
  match a, b with
  | x :: a', y :: b' => (x && y) :: mask_and a' b'
  | _, _ => []
  end.

(** [df[mask]]: the rows whose mask entry is true, in order. *)
Fixpoint select {A} (rows : list A) (mask : list bool) : list A :=
  match rows, mask with
  | r :: rows', b :: mask' =>
      if b then r :: select rows' mask' else select rows' mask'
  | _, _ => []
  end.

(** [s.unique()]: the distinct values in order of first appearance;
    [eqb] compares two values. *)
Fixpoint unique_from {A} (eqb : A -> A -> bool) (seen s : list A) : list A :=
  match s with
  | [] => []
  | x :: s' =>
      if existsb (eqb x) seen then unique_from eqb seen s'
      else x :: unique_from eqb (x :: seen) s'
  end.

Definition unique (s : list string) : list string :=
  unique_from String.eqb [] s.

(** [s.min()] and [s.max()] skip NaN; on an empty (or all-NaN) float64
    column they return NaN. *)
Definition min2 (a b : float) : float :=
  if is_nan a then b else if is_nan b then a else if b <? a then b else a.

Definition max2 (a b : float) : float :=
  if is_nan a then b else if is_nan b then a else if a <? b then b else a.

Definition min (s : list float) : float := fold_left min2 s nan.
Definition max (s : list float) : float := fold_left max2 s nan.

End Series.

(* ------------------------------------------------------------------ *)
(** * Data model *)

(** A spreadsheet cell as [pd.read_excel] returns it in an object column. *)
Inductive cell : Type :=
| Blank
| Number (x : float)
| Text (s : string).

(** [c == 'yes'] and the like: only a text cell equals a string. *)
Definition cell_eq_str (c : cell) (s : string) : bool :=
  match c with
  | Text t => String.eqb t s
  | _ => false
  end.

(** Sheet 'PEFInactivationData' as read, under the source column names. *)
Module Sheet.
Record row : Type := {
  est_energy_input_2_J_ml : cell;
  reduction_used_for_modelling : cell;
  matrix_category : string;
  doi : string;
  food_pH : cell;
  organism_grouped : string;
  food_product : string;
  study_below_equal_300 : cell
}.
End Sheet.

(** A row of [df] after renaming, [fillna] and [pd.to_numeric]; the field
    names are the display names with spaces and units dropped. *)
Record row : Type := {
  Volumetric_energy_input : float;        (* 'Volumetric energy input (kJ/L)' *)
  Decimal_microbial_reduction : float;    (* 'Decimal microbial reduction (-)' *)
  Matrix_category : string;               (* 'Matrix category' *)
  DOI : string;
  Food_pH : cell;                         (* 'Food pH' *)
  Microorganism : string;
  Specific_matrix : string;               (* 'Specific matrix' *)
  study_below_equal_300 : cell
}.

Definition DataFrame : Type := list row.

(** Components of [app.layout]. *)
Inductive component : Type :=
| H4 (text : string)
| Graph (id : string)
| P (text : string)
| RangeSlider (id : string) (min max : float) (value : list float)
| Dropdown (id : string) (options : list (string * string))
    (value : string) (multi : bool).

(** The module's global variables. *)
Record globals : Type := {
  df : DataFrame;
  organism_grouped_values : list string;
  matrix_category_values : list string;
  min_est_energy_input_2_J_ml_rounded : float;
  max_est_energy_input_2_J_ml_rounded : float;
  app_layout : option (list component)    (* children of the top-level Div *)
}.

Definition set_df (d : DataFrame) (g : globals) : globals :=
  {| df := d;
     organism_grouped_values := organism_grouped_values g;
     matrix_category_values := matrix_category_values g;
     min_est_energy_input_2_J_ml_rounded := min_est_energy_input_2_J_ml_rounded g;
     max_est_energy_input_2_J_ml_rounded := max_est_energy_input_2_J_ml_rounded g;
     app_layout := app_layout g |}.

(** The namespace before the module body runs. *)
Definition no_globals : globals :=
  {| df := [];
     organism_grouped_values := [];
     matrix_category_values := [];
     min_est_energy_input_2_J_ml_rounded := nan;
     max_est_energy_input_2_J_ml_rounded := nan;
     app_layout := None |}.

(* ------------------------------------------------------------------ *)
(** * State and exceptions *)

(** A computation reads and writes the globals and returns a value or
    raises; a raise keeps the state reached so far. *)
Definition M (A : Type) : Type := globals -> result A * globals.

Definition ret {A} (a : A) : M A := fun g => (Ok a, g).

Definition bind {A B} (m : M A) (k : A -> M B) : M B :=
  fun g =>
    match m g with
    | (Ok a, g') => k a g'
    | (Raise e, g') => (Raise e, g')
    end.

Definition get : M globals := fun g => (Ok g, g).
Definition put (g : globals) : M unit := fun _ => (Ok tt, g).
Definition lift {A} (r : result A) : M A := fun g => (r, g).

Declare Scope monad_scope.
Delimit Scope monad_scope with monad.
Notation "x <- m ;; k" := (bind m (fun x => k))
  (at level 61, m at next level, right associativity) : monad_scope.
Notation "m ;; k" := (bind m (fun _ => k))
  (at level 61, right associativity) : monad_scope.
#[local] Open Scope monad_scope.

(** [df = f(df)]. *)
Definition assign_df (f : DataFrame -> DataFrame) : M unit :=
  g <- get ;; put (set_df (f (df g)) g).

(* ------------------------------------------------------------------ *)
(** * The scatter plot *)

(** A marker of the figure: position, the symbol and the colour assigned
    to its group, and the hover data.  The markers are kept in row order
    (plotly splits them into one trace per colour and symbol). *)
Record point : Type := {
  pt_x : float;
  pt_y : float;
  pt_symbol : string;
  pt_color : nat;                 (* index into the colour sequence *)
  pt_DOI : string;
  pt_Food_pH : cell;
  pt_Matrix_category : string;
  pt_Microorganism : string;
  pt_Specific_matrix : string
}.

Inductive scope : Type := trace | overall.

(** A regression the figure carries: the group it was fitted on ([None]
    for the overall one), whether a constant column was added to the
    regressor, the line colour, and the observations [(x, y)]. *)
Record trend : Type := {
  tr_group : option (string * string);
  tr_add_constant : bool;
  tr_color : option string;
  tr_obs : list (float * float)
}.

Record figure : Type := {
  fig_points : list point;
  fig_trendlines : list trend;
  xaxis_title : string;
  yaxis_title : string
}.

(** The keyword arguments of [px.scatter] that vary; [x], [y], [symbol],
    [color] and [hover_data] are the columns named in the call. *)
Record scatter_args : Type := {
  kw_symbol_sequence : list string;
  kw_color_sequence_length : nat;          (* len(color_discrete_sequence) *)
  kw_trendline : option string;
  kw_trendline_scope : scope;
  kw_trendline_color_override : option string;
  kw_add_constant : bool                   (* trendline_options *)
}.

Module px.

#[local] Open Scope float_scope.

Definition pair_eqb (a b : string * string) : bool :=
  String.eqb (fst a) (fst b) && String.eqb (snd a) (snd b).

(** Position of [x] among the distinct values [vals]. *)
Fixpoint index_of (x : string) (vals : list string) : nat :=
  match vals with
  | [] => 0
  | v :: vals' => if String.eqb x v then 0 else S (index_of x vals')
  end.

(** Each distinct value takes the next entry of its sequence, in order of
    first appearance, cycling when the sequence is exhausted. *)
Definition assign (seq_len : nat) (x : string) (vals : list string) : nat :=
  Nat.modulo (index_of x vals) seq_len.

Definition to_point (a : scatter_args) (d : DataFrame) (r : row) : point :=
  {| pt_x := Volumetric_energy_input r;
     pt_y := Decimal_microbial_reduction r;
     pt_symbol :=
       nth (assign (List.length (kw_symbol_sequence a)) (Matrix_category r)
              (Series.unique (map Matrix_category d)))
           (kw_symbol_sequence a) "circle";
     pt_color :=
       assign (kw_color_sequence_length a) (DOI r) (Series.unique (map DOI d));
     pt_DOI := DOI r;
     pt_Food_pH := Food_pH r;
     pt_Matrix_category := Matrix_category r;
     pt_Microorganism := Microorganism r;
     pt_Specific_matrix := Specific_matrix r |}.

(** The observations of a fit: rows with a missing [x] or [y] dropped.
    (plotly sorts them by [x] before fitting; they are kept in row order
    here, which the least-squares solution does not depend on.) *)
Definition observations (d : DataFrame) : list (float * float) :=
  map (fun r => (Volumetric_energy_input r, Decimal_microbial_reduction r))
      (filter (fun r => Series.notna (Volumetric_energy_input r)
                        && Series.notna (Decimal_microbial_reduction r)) d).

(** A regression is fitted only on more than one observation. *)
Definition fit (a : scatter_args) (group : option (string * string))
    (d : DataFrame) : list trend :=
  let obs := observations d in
  if Nat.ltb 1 (List.length obs)
  then [ {| tr_group := group;
            tr_add_constant := kw_add_constant a;
            tr_color := kw_trendline_color_override a;
            tr_obs := obs |} ]
  else [].

(** The traces: one per distinct (colour, symbol) pair, in order of first
    appearance. *)
Definition group_key (r : row) : string * string :=
  (DOI r, Matrix_category r).

Definition groups (d : DataFrame) : list ((string * string) * DataFrame) :=
  map (fun k => (k, filter (fun r => pair_eqb (group_key r) k) d))
      (Series.unique_from pair_eqb [] (map group_key d)).

Definition trendlines (a : scatter_args) (d : DataFrame) : list trend :=
  match kw_trendline a with
  | None => []
  | Some _ =>
      match kw_trendline_scope a with
      | overall => fit a None d
      | trace => flat_map (fun kd => fit a (Some (fst kd)) (snd kd)) (groups d)
      end
  end.

(** [px.scatter(data_frame, x=..., y=..., symbol=..., color=..., ...)], by
    its documented behaviour: it returns a figure for every frame, with one
    marker per row and the regressions above; the axis titles default to
    the column names. *)
Definition scatter (d : DataFrame) (a : scatter_args) : figure :=
  {| fig_points := map (to_point a d) d;
     fig_trendlines := trendlines a d;
     xaxis_title := "Volumetric energy input (kJ/L)";
     yaxis_title := "Decimal microbial reduction (-)" |}.

(** [fig.update_layout(xaxis_title=..., yaxis_title=...)]. *)
Definition update_layout (f : figure) (xt yt : string) : figure :=
  {| fig_points := fig_points f;
     fig_trendlines := fig_trendlines f;
     xaxis_title := xt;
     yaxis_title := yt |}.

End px.

(* ------------------------------------------------------------------ *)
(** * Ordinary least squares *)

(** The regression that [trendline="ols"] delegates to statsmodels, in
    exact rational arithmetic on the exact values of the observations (the
    library computes the same quantities in binary64, up to rounding).
    The regressor is the column [x], preceded by a column of ones when
    [add_constant] holds; the parameters are listed in the regressor's
    column order.  A rank-deficient regressor gets the minimum-norm
    solution, as with the pseudo-inverse the library uses. *)
Module OLS.

#[local] Open Scope Q_scope.

Definition sum (l : list Q) : Q := fold_right Qplus 0 l.

Definition Sx (obs : list (Q * Q)) : Q := sum (map fst obs).
Definition Sy (obs : list (Q * Q)) : Q := sum (map snd obs).
Definition Sxx (obs : list (Q * Q)) : Q :=
  sum (map (fun p => fst p * fst p) obs).
Definition Sxy (obs : list (Q * Q)) : Q :=
  sum (map (fun p => fst p * snd p) obs).

Definition params (add_constant : bool) (obs : list (Q * Q)) : list Q :=
  if add_constant then
    let n := inject_Z (Z.of_nat (List.length obs)) in
    let det := n * Sxx obs - Sx obs * Sx obs in
    if Qeq_bool det 0 then
      let c := Sx obs / n in
      let m := Sy obs / n in
      [ m / (1 + c * c); c * m / (1 + c * c) ]
    else
      let b := (n * Sxy obs - Sx obs * Sy obs) / det in
      [ (Sy obs - b * Sx obs) / n; b ]
  else
    [ Sxy obs / Sxx obs ].



Fixpoint exact (obs : list (float * float)) : option (list (Q * Q)) :=
  match obs with
  | [] => Some []
  | (x, y) :: obs' =>
      match Float64.to_Q x, Float64.to_Q y, exact obs' with
      | Some qx, Some qy, Some l => Some ((qx, qy) :: l)
      | _, _, _ => None
      end
  end.

(** Parameters of a figure's regression; [None] when an observation is
    infinite. *)
Definition trend_params (t : trend) : option (list Q) :=
  option_map (params (tr_add_constant t)) (exact (tr_obs t)).

End OLS.

(* ------------------------------------------------------------------ *)
(** * The module body: loading, cleaning, controls and layout *)

Section ModuleBody.

#[local] Open Scope float_scope.

(** The number a text cell denotes for [pd.to_numeric], if any. *)
Variable str_to_float : string -> option float.

(** [pd.to_numeric] on one cell of a column: a blank becomes NaN, text
    that is not a number raises. *)
Definition to_numeric (c : cell) : result float :=
  match c with
  | Blank => Ok nan
  | Number x => Ok x
  | Text s =>
      match str_to_float s with
      | Some x => Ok x
      | None => Raise ValueError
      end
  end.

(** [s.fillna(value)] on one cell. *)
Definition fillna (value : string) (c : cell) : cell :=
  match c with
  | Blank => Text value
  | Number x => if is_nan x then Text value else c
  | Text _ => c
  end.

(** Lines 16-31 on one row: rename, fill the missing pH, convert the two
    numeric columns (energy first; both conversions raise the same
    exception, so converting row by row raises exactly when converting
    column by column does). *)
Definition prepare (r : Sheet.row) : result row :=
  result_bind (to_numeric (Sheet.est_energy_input_2_J_ml r)) (fun e =>
  result_bind (to_numeric (Sheet.reduction_used_for_modelling r)) (fun y =>
  Ok {| Volumetric_energy_input := e;
        Decimal_microbial_reduction := y;
        Matrix_category := Sheet.matrix_category r;
        DOI := Sheet.doi r;
        Food_pH := fillna "NA" (Sheet.food_pH r);
        Microorganism := Sheet.organism_grouped r;
        Specific_matrix := Sheet.food_product r;
        study_below_equal_300 := Sheet.study_below_equal_300 r |})).

(** The four row filters of lines 34-37, each [df = df[mask]]. *)
Definition filter_energy_notna (d : DataFrame) : DataFrame :=
  Series.select d (map Series.notna (map Volumetric_energy_input d)).

Definition filter_energy_le_300 (d : DataFrame) : DataFrame :=
  Series.select d (map (fun x => x <=? 300) (map Volumetric_energy_input d)).

Definition filter_reduction_notna (d : DataFrame) : DataFrame :=
  Series.select d (map Series.notna (map Decimal_microbial_reduction d)).

Definition filter_study_yes (d : DataFrame) : DataFrame :=
  Series.select d
    (map (fun c => cell_eq_str c "yes") (map study_below_equal_300 d)).

Definition layout (g : globals) (category0 organism0 : string)
  : list component :=
  [ H4 "Interactive plotting of PEF decontamination efficacy";
    Graph "scatter-plot";
    P "Filter by volumetric energy input (kJ/L)";
    RangeSlider "Volumetric energy input (kJ/L)-range-slider"
      (min_est_energy_input_2_J_ml_rounded g)
      (max_est_energy_input_2_J_ml_rounded g)
      [ min_est_energy_input_2_J_ml_rounded g;
        max_est_energy_input_2_J_ml_rounded g ];
    P "Select matrix category:";
    Dropdown "Matrix category-dropdown"
      (map (fun i => (i, i)) (matrix_category_values g)) category0 true;
    P "Select microbial species:";
    Dropdown "Microorganism-dropdown"
      (map (fun i => (i, i)) (organism_grouped_values g)) organism0 true ].

(** Lines 13-80, run once at import. *)
Definition module_body (sheet : list Sheet.row) : M unit :=
  d <- lift (mapM prepare sheet) ;;
  assign_df (fun _ => d) ;;
  assign_df filter_energy_notna ;;
  assign_df filter_energy_le_300 ;;
  assign_df filter_reduction_notna ;;
  assign_df filter_study_yes ;;
  g <- get ;;
  put {| df := df g;
         organism_grouped_values := Series.unique (map Microorganism (df g));
         matrix_category_values := Series.unique (map Matrix_category (df g));
         min_est_energy_input_2_J_ml_rounded :=
           Float64.np_round1 (Series.min (map Volumetric_energy_input (df g)));
         max_est_energy_input_2_J_ml_rounded :=
           Float64.np_round1 (Series.max (map Volumetric_energy_input (df g)));
         app_layout := app_layout g |} ;;
  g <- get ;;
  category0 <- lift (getitem (matrix_category_values g) 0) ;;
  organism0 <- lift (getitem (organism_grouped_values g) 0) ;;
  put {| df := df g;
         organism_grouped_values := organism_grouped_values g;
         matrix_category_values := matrix_category_values g;
         min_est_energy_input_2_J_ml_rounded :=
           min_est_energy_input_2_J_ml_rounded g;
         max_est_energy_input_2_J_ml_rounded :=
           max_est_energy_input_2_J_ml_rounded g;
         app_layout := Some (layout g category0 organism0) |}.

(** The cleaned table, as a function of the prepared rows. *)
Definition clean (d : DataFrame) : DataFrame :=
  filter_study_yes
    (filter_reduction_notna (filter_energy_le_300 (filter_energy_notna d))).

End ModuleBody.

(* ------------------------------------------------------------------ *)
(** * The callback *)

(** The value of a multi-select dropdown: a list, or a bare value. *)
Inductive selection : Type :=
| Many (values : list string)
| One (value : string).

(** [v if isinstance(v, list) else [v]]. *)
Definition as_list (v : selection) : list string :=
  match v with
  | Many values => values
  | One value => [value]
  end.

(** Lines 101-118: the boolean mask over the rows of [d]. *)
Definition mask (d : DataFrame) (lo hi : float)
    (selected_matrix_categories selected_organism_grouped : selection)
  : list bool :=
  let rounded_area_values := Series.round (map Volumetric_energy_input d) in
  let rounded_area_range := (Float64.round1 lo, Float64.round1 hi) in
  Series.mask_and
    (Series.mask_and
       (Series.between rounded_area_values
          (fst rounded_area_range) (snd rounded_area_range))
       (Series.isin (map Matrix_category d)
          (as_list selected_matrix_categories)))
    (Series.isin (map Microorganism d) (as_list selected_organism_grouped)).

(** Line 120. *)
Definition filtered_df (d : DataFrame) (lo hi : float)
    (selected_matrix_categories selected_organism_grouped : selection)
  : DataFrame :=
  Series.select d
    (mask d lo hi selected_matrix_categories selected_organism_grouped).

Definition symbol_sequence : list string :=
  [ "circle"; "square"; "diamond"; "triangle-up"; "triangle-down";
    "cross"; "x"; "star-triangle-up"; "hexagon"; "star" ].

(** The keyword arguments of the call at lines 130-144; Dark24 has 24
    colours. *)
Definition scatter_kwargs : scatter_args :=
  {| kw_symbol_sequence := symbol_sequence;
     kw_color_sequence_length := 24;
     kw_trendline := Some "ols";
     kw_trendline_scope := overall;
     kw_trendline_color_override := Some "black";
     kw_add_constant := false |}.

Definition update_bar_chart (est_energy_input_2_J_ml_range : list float)
    (selected_matrix_categories selected_organism_grouped : selection)
  : M figure :=
  g <- get ;;
  lo <- lift (getitem est_energy_input_2_J_ml_range 0) ;;
  hi <- lift (getitem est_energy_input_2_J_ml_range 1) ;;
  let fig :=
    px.scatter
      (filtered_df (df g) lo hi
         selected_matrix_categories selected_organism_grouped)
      scatter_kwargs in
  ret (px.update_layout fig
         "Volumetric energy input (kJ/L)" "Decimal microbial reduction (-)").

(** The figure the callback returns for a filtered table. *)
Definition chart_of (filtered : DataFrame) : figure :=
  px.update_layout (px.scatter filtered scatter_kwargs)
    "Volumetric energy input (kJ/L)" "Decimal microbial reduction (-)".

(** The figure of an empty table: no point, no regression. *)
Definition empty_chart : figure :=
  {| fig_points := [];
     fig_trendlines := [];
     xaxis_title := "Volumetric energy input (kJ/L)";
     yaxis_title := "Decimal microbial reduction (-)" |}.

(** The condition the mask of [update_bar_chart] puts on one row. *)
Definition keep (lo hi : float) (cats orgs : selection) (r : row) : bool :=
  Series.between1 (Float64.round1 lo) (Float64.round1 hi)
    (Float64.np_round1 (Volumetric_energy_input r))
  && Series.isin1 (as_list cats) (Matrix_category r)
  && Series.isin1 (as_list orgs) (Microorganism r).

(** The condition of the four cleaning filters on one prepared row. *)
Definition cleaned (r : row) : bool :=
  (Series.notna (Volumetric_energy_input r)
   && (Volumetric_energy_input r <=? 300)%float
   && Series.notna (Decimal_microbial_reduction r)
   && cell_eq_str (study_below_equal_300 r) "yes")%bool.

(** The globals once lines 13-46 have run and left the cleaned table [d]:
    the table, the selectable values and the slider's bounds; [lay] is the
    value of [app.layout]. *)
Definition loaded (d : DataFrame) (lay : option (list component)) : globals :=
  {| df := d;
     organism_grouped_values := Series.unique (map Microorganism d);
     matrix_category_values := Series.unique (map Matrix_category d);
     min_est_energy_input_2_J_ml_rounded :=
       Float64.np_round1 (Series.min (map Volumetric_energy_input d));
     max_est_energy_input_2_J_ml_rounded :=
       Float64.np_round1 (Series.max (map Volumetric_energy_input d));
     app_layout := lay |}.

(** A cell that holds a value: text, or a number that is not NaN. *)
Definition present (c : cell) : bool :=
  match c with
  | Blank => false
  | Number x => negb (is_nan x)
  | Text _ => true
  end.

(* ------------------------------------------------------------------ *)
(** * Sample tables *)

Module Sample.

#[local] Open Scope float_scope.

Definition record (energy reduction : float) (category organism : string)
  : row :=
  {| Volumetric_energy_input := energy;
     Decimal_microbial_reduction := reduction;
     Matrix_category := category;
     DOI := "10.1000/pef";
     Food_pH := Text "NA";
     Microorganism := organism;
     Specific_matrix := "apple juice";
     study_below_equal_300 := Text "yes" |}.

Definition r104 : row := record 1.04 2 "Juice" "E. coli".
Definition r105 : row := record 1.05 3 "Juice" "E. coli".
Definition r106 : row := record 1.06 4 "Juice" "E. coli".
Definition r200 : row := record 2 5 "Milk" "L. innocua".


Definition line (energy reduction flag : cell) : Sheet.row :=
  {| Sheet.est_energy_input_2_J_ml := energy;
     Sheet.reduction_used_for_modelling := reduction;
     Sheet.matrix_category := "Juice";
     Sheet.doi := "10.1000/pef";
     Sheet.food_pH := Blank;
     Sheet.organism_grouped := "E. coli";
     Sheet.food_product := "apple juice";
     Sheet.study_below_equal_300 := flag |}.

(** Energies 10, 50, 301, missing, 200; the last row is flagged "no". *)
Definition sheet : list Sheet.row :=
  [ line (Number 10) (Number 1) (Text "yes");
    line (Number 50) (Number 2) (Text "yes");
    line (Number 301) (Number 3) (Text "yes");
    line Blank (Number 4) (Text "yes");
    line (Number 200) (Number 5) (Text "no") ].

(** No text cell is read as a number. *)
Definition no_text (_ : string) : option float := None.

(** The sheet after renaming, [fillna] and [pd.to_numeric]. *)
Definition flagged (energy reduction : float) (flag : string) : row :=
  {| Volumetric_energy_input := energy;
     Decimal_microbial_reduction := reduction;
     Matrix_category := "Juice";
     DOI := "10.1000/pef";
     Food_pH := Text "NA";
     Microorganism := "E. coli";
     Specific_matrix := "apple juice";
     study_below_equal_300 := Text flag |}.

Definition prepared : DataFrame :=
  [ flagged 10 1 "yes"; flagged 50 2 "yes"; flagged 301 3 "yes";
    flagged nan 4 "yes"; flagged 200 5 "no" ].

End Sample.

(* ================================================================== *)
(** * Properties *)

(** ** Lists, masks and selections *)

Lemma select_map {A} (p : A -> bool) (l : list A) :
  Series.select l (map p l) = filter p l.
Proof.
  induction l as [|a l IH]; simpl; [reflexivity|].
  rewrite IH. reflexivity.
Qed.

Lemma mask_and_map {A} (p q : A -> bool) (l : list A) :
  Series.mask_and (map p l) (map q l) = map (fun a => p a && q a) l.
Proof.
  induction l as [|a l IH]; simpl; [reflexivity|].
  rewrite IH. reflexivity.
Qed.

Lemma isin1_In (values : list string) (x : string) :
  Series.isin1 values x = true <-> In x values.
Proof.
  unfold Series.isin1. rewrite existsb_exists. split.
  - intros [y [Hy Heq]]. apply String.eqb_eq in Heq. subst. exact Hy.
  - intros H. exists x. split; [exact H | apply String.eqb_refl].
Qed.

Lemma unique_from_In (seen s : list string) (x : string) :
  In x (Series.unique_from String.eqb seen s) <-> In x s /\ ~ In x seen.
Proof.
  revert seen. induction s as [|y s IH]; intros seen; simpl.
  - tauto.
  - destruct (existsb (String.eqb y) seen) eqn:E.
    + apply (isin1_In seen y) in E. rewrite IH. split.
      * intros [H1 H2]. tauto.
      * intros [[H1 | H1] H2]; [subst; contradiction | tauto].
    + assert (Hy : ~ In y seen).
      { intro H. apply (isin1_In seen y) in H.
        unfold Series.isin1 in H. congruence. }
      simpl. rewrite IH. simpl. split.
      * intros [H | [H1 H2]]; [subst; tauto | tauto].
      * intros [[H1 | H1] H2]; [tauto |].
        destruct (string_dec y x); [tauto |]. right. tauto.
Qed.

Lemma unique_In (s : list string) (x : string) :
  In x (Series.unique s) <-> In x s.
Proof.
  unfold Series.unique. rewrite unique_from_In. simpl. tauto.
Qed.

Lemma filter_id_forallb {A} (p : A -> bool) (l : list A) :
  filter p l = l <-> forallb p l = true.
Proof.
  induction l as [|a l IH]; simpl; [tauto|].
  destruct (p a) eqn:E; simpl.
  - rewrite <- IH. split; [intros H; injection H; auto | intros ->; reflexivity].
  - split; [|discriminate]. intros H.
    assert (Hin : In a (filter p l)) by (rewrite H; left; reflexivity).
    apply filter_In in Hin. destruct Hin as [_ Hp]. congruence.
Qed.

(** ** Rounding to one decimal *)

(** [div_half_even n d] is a nearest integer to [n / d]. *)
Lemma div_half_even_nearest (n d : Z) :
  (0 < d)%Z ->
  (Z.abs (2 * n - 2 * d * Float64.div_half_even n d) <= d)%Z.
Proof.
  intros Hd. unfold Float64.div_half_even.
  pose proof (Z.div_mod n d) as Hdm.
  pose proof (Z.mod_pos_bound n d Hd) as Hr.
  destruct (2 * (n mod d) ?= d)%Z eqn:E.
  - apply Z.compare_eq in E. destruct (Z.even (n / d)); lia.
  - rewrite Z.compare_lt_iff in E. lia.
  - rewrite Z.compare_gt_iff in E. lia.
Qed.

(** The two routines disagree on 1.05.  The column's rounding scales it to
    exactly 10.5 (the product is rounded to the nearest float), [rint]
    takes the tie 10.5 to the even 10, and the result is 1.0.  [round]
    works on the exact value of the float 1.05, which lies just above the
    decimal 1.05, and returns 1.1. *)
Example rounding_1_05 :
  (1.05 * 10)%float = 10.5%float /\
  Float64.rint 10.5 = 10%float /\
  Float64.np_round1 1.05 = 1%float /\
  Float64.to_Q 1.05 = Some (4728779608739021 # 4503599627370496) /\
  Float64.round1 1.05 = 1.1%float.
Proof. vm_compute. repeat split. Qed.

Example rounding_1_04_1_06 :
  Float64.np_round1 1.04 = 1%float /\
  Float64.round1 1.04 = 1%float /\
  Float64.np_round1 1.06 = 1.1%float /\
  Float64.round1 1.06 = 1.1%float.
Proof. vm_compute. repeat split. Qed.

(** Ties on the exact value go to the even digit; NaN is kept. *)
Example rounding_ties :
  Float64.round1 0.25 = 0.2%float /\
  Float64.round1 0.75 = 0.8%float /\
  Float64.np_round1 0.25 = 0.2%float /\
  Float64.np_round1 0.75 = 0.8%float /\
  is_nan (Float64.round1 nan) = true /\
  is_nan (Float64.np_round1 nan) = true.
Proof. vm_compute. repeat split. Qed.

(** ** The callback's row predicate *)

Lemma filtered_df_filter d lo hi cats orgs :
  filtered_df d lo hi cats orgs = filter (keep lo hi cats orgs) d.
Proof.
  unfold filtered_df, mask, Series.between, Series.isin, Series.round; simpl.
  rewrite !map_map, !mask_and_map. apply select_map.
Qed.


Lemma update_bar_chart_state range cats orgs g :
  snd (update_bar_chart range cats orgs g) = g.
Proof.
  destruct range as [|lo [|hi range]]; reflexivity.
Qed.

(** ** binary64 order *)

Section FloatOrder.

#[local] Open Scope float_scope.

Lemma SFcompare_refl (f : spec_float) :
  f <> S754_nan -> SFcompare f f = Some Eq.
Proof.
  destruct f as [s|s| |s m e]; simpl; try congruence; intros _.
  - destruct s; reflexivity.
  - destruct s; rewrite Z.compare_refl, Pos.compare_cont_refl; reflexivity.
Qed.

(** [<=?] on floats that are not NaN is the lexicographic order of their
    ranks. *)
Lemma SFleb_rank (a b : spec_float) :
  a <> S754_nan -> b <> S754_nan ->
  (SFleb a b = true <-> Float64.rank_le (Float64.rank a) (Float64.rank b)).
Proof.
  intros Ha Hb. unfold SFleb.
  destruct a as [sa|sa| |sa ma ea]; destruct b as [sb|sb| |sb mb eb];
    try congruence; clear Ha Hb; simpl;
    try (destruct sa); try (destruct sb); simpl;
    try (split; [intros _; lia | reflexivity]);
    try (split; [discriminate | lia]).
  - change (Pos.compare_cont Eq ma mb) with (Pos.compare ma mb).
    destruct (Z.compare_spec ea eb); [destruct (Pos.compare_spec ma mb)| |];
      simpl; split; (discriminate || lia || reflexivity).
  - change (Pos.compare_cont Eq ma mb) with (Pos.compare ma mb).
    destruct (Z.compare_spec ea eb); [destruct (Pos.compare_spec ma mb)| |];
      simpl; split; (discriminate || lia || reflexivity).
Qed.

Lemma rank_le_trans a b c :
  Float64.rank_le a b -> Float64.rank_le b c -> Float64.rank_le a c.
Proof.
  destruct a as [[? ?] ?], b as [[? ?] ?], c as [[? ?] ?].
  unfold Float64.rank_le. lia.
Qed.

Lemma rank_le_total a b : Float64.rank_le a b \/ Float64.rank_le b a.
Proof.
  destruct a as [[? ?] ?], b as [[? ?] ?]. unfold Float64.rank_le. lia.
Qed.

Lemma is_nan_spec (x : float) :
  is_nan x = false <-> Prim2SF x <> S754_nan.
Proof.
  unfold is_nan. rewrite negb_false_iff, eqb_spec. unfold SFeqb. split.
  - intros H E. rewrite E in H. discriminate.
  - intros H. rewrite SFcompare_refl by exact H. reflexivity.
Qed.

(** A true [<=?] has no NaN on either side. *)
Lemma leb_not_nan (x y : float) :
  (x <=? y) = true -> is_nan x = false /\ is_nan y = false.
Proof.
  rewrite leb_spec, !is_nan_spec. unfold SFleb. intros H. split; intros E.
  - rewrite E in H. discriminate.
  - rewrite E in H. destruct (Prim2SF x) as [s|s| |s m e]; discriminate.
Qed.

Lemma leb_refl (x : float) : is_nan x = false -> (x <=? x) = true.
Proof.
  rewrite is_nan_spec, leb_spec. intros H. unfold SFleb.
  rewrite SFcompare_refl by exact H. reflexivity.
Qed.

Lemma leb_trans (x y z : float) :
  (x <=? y) = true -> (y <=? z) = true -> (x <=? z) = true.
Proof.
  intros Hxy Hyz.
  destruct (leb_not_nan _ _ Hxy) as [Hx Hy].
  destruct (leb_not_nan _ _ Hyz) as [_ Hz].
  apply is_nan_spec in Hx, Hy, Hz.
  rewrite leb_spec in *. rewrite SFleb_rank in * by assumption.
  eapply rank_le_trans; eassumption.
Qed.

(** Of two floats that are not NaN, one is below the other; [<?] decides
    which. *)
Lemma ltb_true_leb (x y : float) : (x <? y) = true -> (x <=? y) = true.
Proof.
  rewrite ltb_spec, leb_spec. unfold SFltb, SFleb.
  destruct (SFcompare (Prim2SF x) (Prim2SF y)) as [[| |]|];
    (discriminate || reflexivity).
Qed.

Lemma ltb_false_leb (x y : float) :
  is_nan x = false -> is_nan y = false ->
  (x <? y) = false -> (y <=? x) = true.
Proof.
  intros Hx Hy H. apply is_nan_spec in Hx, Hy.
  destruct (rank_le_total (Float64.rank (Prim2SF y)) (Float64.rank (Prim2SF x)))
    as [Hle | Hle].
  - rewrite leb_spec. apply SFleb_rank; assumption.
  - (* x <= y and not x < y: the comparison is Eq *)
    apply SFleb_rank in Hle; try assumption.
    rewrite ltb_spec in H. rewrite leb_spec. unfold SFltb, SFleb in *.
    destruct (Prim2SF x) as [sx|sx| |sx mx ex];
      destruct (Prim2SF y) as [sy|sy| |sy my ey];
      try congruence; simpl in *;
      try (destruct sx); try (destruct sy); simpl in *;
      try reflexivity; try discriminate.
    + change (Pos.compare_cont Eq mx my) with (Pos.compare mx my) in *.
      change (Pos.compare_cont Eq my mx) with (Pos.compare my mx).
      rewrite (Z.compare_antisym ex ey), (Pos.compare_antisym mx my).
      destruct (ex ?= ey)%Z; simpl in *;
        try destruct (mx ?= my)%positive; simpl in *;
        (discriminate || reflexivity).
    + change (Pos.compare_cont Eq mx my) with (Pos.compare mx my) in *.
      change (Pos.compare_cont Eq my mx) with (Pos.compare my mx).
      rewrite (Z.compare_antisym ex ey), (Pos.compare_antisym mx my).
      destruct (ex ?= ey)%Z; simpl in *;
        try destruct (mx ?= my)%positive; simpl in *;
        (discriminate || reflexivity).
Qed.

End FloatOrder.

(** ** The module body *)

Lemma filter_filter {A} (p q : A -> bool) (l : list A) :
  filter q (filter p l) = filter (fun a => p a && q a) l.
Proof.
  induction l as [|a l IH]; simpl; [reflexivity|].
  destruct (p a); simpl; [destruct (q a)|]; rewrite IH; reflexivity.
Qed.

Lemma clean_filter (d : DataFrame) : clean d = filter cleaned d.
Proof.
  unfold clean, filter_study_yes, filter_reduction_notna,
    filter_energy_le_300, filter_energy_notna.
  rewrite !map_map, !select_map, !filter_filter.
  apply filter_ext. intros r. unfold cleaned.
  rewrite !andb_assoc. reflexivity.
Qed.

Lemma cleaned_spec (r : row) :
  cleaned r = true <->
  is_nan (Volumetric_energy_input r) = false /\
  (Volumetric_energy_input r <=? 300)%float = true /\
  is_nan (Decimal_microbial_reduction r) = false /\
  study_below_equal_300 r = Text "yes".
Proof.
  unfold cleaned, Series.notna. rewrite !andb_true_iff, !negb_true_iff.
  assert (Hc : cell_eq_str (study_below_equal_300 r) "yes" = true <->
               study_below_equal_300 r = Text "yes").
  { destruct (study_below_equal_300 r) as [|x|t]; simpl;
      try (split; [discriminate | congruence]).
    rewrite String.eqb_eq. split; congruence. }
  rewrite Hc. tauto.
Qed.

(** After the module body has run on a sheet whose numeric columns
    convert, the global [df] is the cleaned table, whether or not the
    layout could be built. *)
Lemma module_body_df parse sheet g0 d :
  mapM (prepare parse) sheet = Ok d ->
  df (snd (module_body parse sheet g0)) = clean d.
Proof.
  intros H. unfold module_body, bind, lift, assign_df, get, put.
  rewrite H. simpl.
  destruct (getitem (Series.unique (map Matrix_category _)) 0); simpl;
    [|reflexivity].
  destruct (getitem (Series.unique (map Microorganism _)) 0); reflexivity.
Qed.

(** C1: every row of the cleaned table has a present energy that is at
    most 300, a present reduction and the inclusion flag "yes"; a prepared
    row is in the cleaned table exactly when it meets all four conditions,
    so no row violating one of them survives. *)
Theorem cleaned_table_invariant parse sheet g0 d r :
  mapM (prepare parse) sheet = Ok d ->
  In r (df (snd (module_body parse sheet g0))) <->
  In r d /\
  is_nan (Volumetric_energy_input r) = false /\
  (Volumetric_energy_input r <=? 300)%float = true /\
  is_nan (Decimal_microbial_reduction r) = false /\
  study_below_equal_300 r = Text "yes".
Proof.
  intros H. rewrite (module_body_df _ _ _ _ H), clean_filter, filter_In.
  rewrite cleaned_spec. reflexivity.
Qed.

Lemma cleaned_table_invariant_witness :
  In (Sample.flagged 50 2 "yes")
     (df (snd (module_body Sample.no_text Sample.sheet no_globals))) <->
  In (Sample.flagged 50 2 "yes") Sample.prepared /\
  is_nan 50 = false /\ (50 <=? 300)%float = true /\ is_nan 2 = false /\
  Text "yes" = Text "yes".
Proof.
  apply (cleaned_table_invariant Sample.no_text Sample.sheet no_globals
           Sample.prepared (Sample.flagged 50 2 "yes")).
  vm_compute. reflexivity.
Defined.

(** The cleaned sample sheet keeps the rows with energies 10 and 50. *)
Example module_body_sample :
  df (snd (module_body Sample.no_text Sample.sheet no_globals)) =
  [ Sample.flagged 10 1 "yes"; Sample.flagged 50 2 "yes" ].
Proof. vm_compute. reflexivity. Qed.

(** ** Filtering *)

Lemma keep_spec lo hi cats orgs r :
  keep lo hi cats orgs r = true <->
  ((Float64.round1 lo <=? Float64.np_round1 (Volumetric_energy_input r))%float
     = true /\
   (Float64.np_round1 (Volumetric_energy_input r) <=? Float64.round1 hi)%float
     = true) /\
  In (Matrix_category r) (as_list cats) /\
  In (Microorganism r) (as_list orgs).
Proof.
  unfold keep, Series.between1.
  rewrite !andb_true_iff, !isin1_In. tauto.
Qed.


(** C3, as the code has it: a selected row whose rounded energy falls on
    a rounded bound of a non-empty range is included.  With the range
    [1.0, 1.0], energies 1.04 and 1.05 are both included: the column
    rounding scales 1.05 to exactly 10.5 and rounds that to the even 10,
    so 1.05 becomes 1.0.  An energy of 1.06, which becomes 1.1, is excluded
    whenever the upper bound is 1.0. *)
Theorem rounded_boundary d lo hi cats orgs r :
  In r d ->
  In (Matrix_category r) (as_list cats) ->
  In (Microorganism r) (as_list orgs) ->
  ((Float64.round1 lo <=? Float64.round1 hi)%float = true ->
   Float64.np_round1 (Volumetric_energy_input r) = Float64.round1 lo \/
   Float64.np_round1 (Volumetric_energy_input r) = Float64.round1 hi ->
   In r (filtered_df d lo hi cats orgs)) /\
  (Volumetric_energy_input r = 1.04%float \/
   Volumetric_energy_input r = 1.05%float ->
   In r (filtered_df d 1 1 cats orgs)) /\
  (Volumetric_energy_input r = 1.06%float ->
   ~ In r (filtered_df d lo 1 cats orgs)).
Proof.
  intros Hr Hc Ho.
  assert (Hin : forall a b,
    Series.between1 (Float64.round1 a) (Float64.round1 b)
      (Float64.np_round1 (Volumetric_energy_input r)) = true ->
    In r (filtered_df d a b cats orgs)).
  { intros a b Hb. rewrite filtered_df_filter, filter_In. split; [exact Hr|].
    unfold keep. rewrite Hb. simpl.
    apply andb_true_iff. split; apply isin1_In; assumption. }
  repeat split.
  - intros Hle [E | E]; apply Hin; unfold Series.between1; rewrite E;
      apply andb_true_iff; split;
      solve [ exact Hle | apply leb_refl, (leb_not_nan _ _ Hle) ].
  - intros [E | E]; apply Hin; rewrite E; vm_compute; reflexivity.
  - intros E. rewrite filtered_df_filter, filter_In, keep_spec, E.
    intros [_ [[_ H] _]]. vm_compute in H. discriminate.
Qed.

Lemma rounded_boundary_witness :
  let d := [Sample.r104; Sample.r105; Sample.r106] in
  In Sample.r104 (filtered_df d 1 1 (One "Juice") (Many ["E. coli"])) /\
  In Sample.r105 (filtered_df d 1 1 (One "Juice") (Many ["E. coli"])) /\
  ~ In Sample.r106 (filtered_df d 1 1 (One "Juice") (Many ["E. coli"])).
Proof.
  intros d.
  assert (H : forall r, In r d ->
            In (Matrix_category r) (as_list (One "Juice")) /\
            In (Microorganism r) (as_list (Many ["E. coli"]))).
  { intros r [<- | [<- | [<- | []]]]; simpl; auto. }
  split; [|split].
  - apply (rounded_boundary d 1 1 (One "Juice") (Many ["E. coli"]) Sample.r104);
      [simpl; auto | apply H; simpl; auto | apply H; simpl; auto |].
    left. reflexivity.
  - apply (rounded_boundary d 1 1 (One "Juice") (Many ["E. coli"]) Sample.r105);
      [simpl; auto | apply H; simpl; auto | apply H; simpl; auto |].
    right. reflexivity.
  - apply (rounded_boundary d 1 1 (One "Juice") (Many ["E. coli"]) Sample.r106);
      [simpl; auto | apply H; simpl; auto | apply H; simpl; auto |].
    reflexivity.
Defined.

(** With the range [1.0, 1.0] the row of energy 1.05 is in the filtered
    set, and so is the row of energy 1.04; the row of energy 1.06 is not. *)
Lemma energy_1_05_is_included :
  filtered_df [Sample.r104; Sample.r105; Sample.r106] 1 1
    (One "Juice") (One "E. coli")
  = [Sample.r104; Sample.r105].
Proof. vm_compute. reflexivity. Qed.

(** ** Smallest and largest value of a column *)

Section Extremes.

#[local] Open Scope float_scope.

Lemma min2_spec (a x : float) :
  is_nan x = false ->
  is_nan (Series.min2 a x) = false /\
  (Series.min2 a x <=? x) = true /\
  (is_nan a = false -> (Series.min2 a x <=? a) = true).
Proof.
  intros Hx. unfold Series.min2.
  destruct (is_nan a) eqn:Ha.
  - repeat split; [exact Hx | apply leb_refl, Hx | discriminate].
  - rewrite Hx. destruct (x <? a) eqn:E.
    + repeat split; [exact Hx | apply leb_refl, Hx |].
      intros _. apply ltb_true_leb, E.
    + repeat split; [exact Ha | | intros _; apply leb_refl, Ha].
      apply ltb_false_leb; assumption.
Qed.

Lemma max2_spec (a x : float) :
  is_nan x = false ->
  is_nan (Series.max2 a x) = false /\
  (x <=? Series.max2 a x) = true /\
  (is_nan a = false -> (a <=? Series.max2 a x) = true).
Proof.
  intros Hx. unfold Series.max2.
  destruct (is_nan a) eqn:Ha.
  - repeat split; [exact Hx | apply leb_refl, Hx | discriminate].
  - rewrite Hx. destruct (a <? x) eqn:E.
    + repeat split; [exact Hx | apply leb_refl, Hx |].
      intros _. apply ltb_true_leb, E.
    + repeat split; [exact Ha | | intros _; apply leb_refl, Ha].
      apply ltb_false_leb; assumption.
Qed.

Lemma fold_min2_le (s : list float) (a : float) :
  (forall x, In x s -> is_nan x = false) ->
  (is_nan a = false -> (fold_left Series.min2 s a <=? a) = true) /\
  (forall x, In x s -> (fold_left Series.min2 s a <=? x) = true).
Proof.
  revert a. induction s as [|y s IH]; intros a Hs; simpl.
  - split; [apply leb_refl | intros x []].
  - assert (Hy : is_nan y = false) by (apply Hs; left; reflexivity).
    destruct (min2_spec a y Hy) as [Hn [Hly Hla]].
    destruct (IH (Series.min2 a y)) as [IHa IHs].
    { intros x Hx. apply Hs. right. exact Hx. }
    split.
    + intros Ha. eapply leb_trans; [apply IHa, Hn | apply Hla, Ha].
    + intros x [<- | Hx].
      * eapply leb_trans; [apply IHa, Hn | exact Hly].
      * apply IHs, Hx.
Qed.

Lemma fold_max2_ge (s : list float) (a : float) :
  (forall x, In x s -> is_nan x = false) ->
  (is_nan a = false -> (a <=? fold_left Series.max2 s a) = true) /\
  (forall x, In x s -> (x <=? fold_left Series.max2 s a) = true).
Proof.
  revert a. induction s as [|y s IH]; intros a Hs; simpl.
  - split; [apply leb_refl | intros x []].
  - assert (Hy : is_nan y = false) by (apply Hs; left; reflexivity).
    destruct (max2_spec a y Hy) as [Hn [Hly Hla]].
    destruct (IH (Series.max2 a y)) as [IHa IHs].
    { intros x Hx. apply Hs. right. exact Hx. }
    split.
    + intros Ha. eapply leb_trans; [apply Hla, Ha | apply IHa, Hn].
    + intros x [<- | Hx].
      * eapply leb_trans; [exact Hly | apply IHa, Hn].
      * apply IHs, Hx.
Qed.

(** In a column without NaN, [s.min()] is below and [s.max()] above every
    value. *)
Lemma Series_min_le (s : list float) (x : float) :
  (forall y, In y s -> is_nan y = false) ->
  In x s -> (Series.min s <=? x) = true.
Proof. intros Hs. apply (fold_min2_le s nan Hs). Qed.

Lemma Series_max_ge (s : list float) (x : float) :
  (forall y, In y s -> is_nan y = false) ->
  In x s -> (x <=? Series.max s) = true.
Proof. intros Hs. apply (fold_max2_ge s nan Hs). Qed.

End Extremes.

(** ** Round trip *)




(** On the same table the slider's bounds, which the module body rounds
    with the column's routine, enclose the rounded column and give the
    whole table back. *)
Example round_trip_slider_bounds_sample :
  let d := [Sample.r105; Sample.r200] in
  let energy := map Volumetric_energy_input d in
  let lo := Float64.np_round1 (Series.min energy) in
  let hi := Float64.np_round1 (Series.max energy) in
  (Float64.round1 lo <=? Series.min (Series.round energy))%float = true /\
  (Series.max (Series.round energy) <=? Float64.round1 hi)%float = true /\
  filtered_df d lo hi
    (Many (Series.unique (map Matrix_category d)))
    (Many (Series.unique (map Microorganism d))) = d.
Proof. vm_compute. repeat split. Qed.

(** ** Monotonicity in the selections *)

(** C10: enlarging the selected categories and organisms, for a fixed
    range, only adds rows to the filtered set. *)
Theorem filtered_df_monotone d lo hi A A' B B' :
  incl (as_list A) (as_list A') ->
  incl (as_list B) (as_list B') ->
  incl (filtered_df d lo hi A B) (filtered_df d lo hi A' B').
Proof.
  intros HA HB r. rewrite !filtered_df_filter, !filter_In, !keep_spec.
  intros [Hr [Hrange [Hc Ho]]]. auto.
Qed.

Lemma filtered_df_monotone_witness :
  incl
    (filtered_df [Sample.r104; Sample.r105; Sample.r106] 1 2
       (One "Juice") (Many ["E. coli"]))
    (filtered_df [Sample.r104; Sample.r105; Sample.r106] 1 2
       (Many ["Juice"; "Milk"]) (Many ["E. coli"; "L. innocua"])).
Proof.
  apply (filtered_df_monotone [Sample.r104; Sample.r105; Sample.r106] 1 2
           (One "Juice") (Many ["Juice"; "Milk"])
           (Many ["E. coli"]) (Many ["E. coli"; "L. innocua"]));
    intros x; simpl; tauto.
Defined.

(** ** The trend line *)

Section LeastSquares.

#[local] Open Scope Q_scope.







End LeastSquares.

Lemma chart_of_trendlines (filtered : DataFrame) :
  fig_trendlines (chart_of filtered) =
  if Nat.ltb 1 (List.length (px.observations filtered))
  then [ {| tr_group := None;
            tr_add_constant := false;
            tr_color := Some "black";
            tr_obs := px.observations filtered |} ]
  else [].
Proof. reflexivity. Qed.



(** ** Empty results and errors *)

Lemma chart_of_nil : chart_of [] = empty_chart.
Proof. reflexivity. Qed.



(** C7, as the code has it: the program defines no [EmptyDatasetError].
    When the cleaned table is empty the slider bounds are computed as NaN
    and kept in the globals, and the module body then raises [IndexError]
    where the layout takes the first element of the empty list of
    categories; [app.layout] is never assigned. *)
Theorem empty_table_startup parse sheet g0 d :
  mapM (prepare parse) sheet = Ok d ->
  clean d = [] ->
  exists g,
    module_body parse sheet g0 = (Raise IndexError, g) /\
    df g = [] /\
    is_nan (min_est_energy_input_2_J_ml_rounded g) = true /\
    is_nan (max_est_energy_input_2_J_ml_rounded g) = true /\
    app_layout g = app_layout g0.
Proof.
  intros H Hc. unfold module_body, bind, lift, assign_df, get, put.
  rewrite H. simpl. fold (filter_energy_notna d).
  fold (filter_energy_le_300 (filter_energy_notna d)).
  fold (filter_reduction_notna (filter_energy_le_300 (filter_energy_notna d))).
  fold (filter_study_yes
          (filter_reduction_notna (filter_energy_le_300 (filter_energy_notna d)))).
  fold (clean d). rewrite Hc. simpl.
  eexists. split; [reflexivity|]. simpl. repeat split.
Qed.

Lemma empty_table_startup_witness :
  exists g,
    module_body Sample.no_text
      [ Sample.line (Number 301) (Number 3) (Text "yes");
        Sample.line (Number 200) (Number 5) (Text "no") ] no_globals
    = (Raise IndexError, g) /\
    df g = [] /\
    is_nan (min_est_energy_input_2_J_ml_rounded g) = true /\
    is_nan (max_est_energy_input_2_J_ml_rounded g) = true /\
    app_layout g = app_layout no_globals.
Proof.
  apply (empty_table_startup Sample.no_text
           [ Sample.line (Number 301) (Number 3) (Text "yes");
             Sample.line (Number 200) (Number 5) (Text "no") ]
           no_globals
           [ Sample.flagged 301 3 "yes"; Sample.flagged 200 5 "no" ]);
    vm_compute; reflexivity.
Defined.

(** On a sheet whose rows are all dropped the module body raises
    [IndexError], not [EmptyDatasetError], after the NaN bounds have been
    stored. *)
Lemma empty_table_raises_IndexError :
  let run := module_body Sample.no_text
               [ Sample.line (Number 301) (Number 3) (Text "yes") ]
               no_globals in
  fst run = Raise IndexError /\
  fst run <> Raise EmptyDatasetError /\
  df (snd run) = [] /\
  is_nan (min_est_energy_input_2_J_ml_rounded (snd run)) = true /\
  is_nan (max_est_energy_input_2_J_ml_rounded (snd run)) = true.
Proof.
  vm_compute. repeat split. discriminate.
Qed.

(** ** Determinism and frame *)

(** C8: a second invocation with the same control values, run in the
    state the first one left, returns the same result: the same figure,
    hence the same points and the same regression parameters, or the same
    exception. *)
Theorem callback_deterministic range cats orgs g :
  let first := update_bar_chart range cats orgs g in
  let second := update_bar_chart range cats orgs (snd first) in
  fst second = fst first /\
  forall fig1 fig2,
    fst first = Ok fig1 -> fst second = Ok fig2 ->
    fig_points fig1 = fig_points fig2 /\
    map OLS.trend_params (fig_trendlines fig1) =
    map OLS.trend_params (fig_trendlines fig2).
Proof.
  intros first second. unfold second, first.
  rewrite update_bar_chart_state. split; [reflexivity|].
  intros fig1 fig2 H1 H2. rewrite H1 in H2. injection H2 as <-.
  split; reflexivity.
Qed.

(** C9: the callback leaves the globals as it found them, whatever it
    returns; in particular the table [df] has the same rows with the same
    fields after the call. *)
Theorem callback_frame range cats orgs g :
  snd (update_bar_chart range cats orgs g) = g /\
  df (snd (update_bar_chart range cats orgs g)) = df g.
Proof.
  rewrite update_bar_chart_state. split; reflexivity.
Qed.

(* ================================================================== *)
(** * Further properties of the module body *)

(** ** Conversion of the sheet *)

Lemma mapM_Forall2 {A B} (f : A -> result B) (l : list A) (d : list B) :
  mapM f l = Ok d -> Forall2 (fun a b => f a = Ok b) l d.
Proof.
  revert d. induction l as [|a l IH]; simpl; intros d H.
  - injection H as <-. constructor.
  - destruct (f a) as [b|e] eqn:Ea; simpl in H; [|discriminate].
    destruct (mapM f l) as [bs|e]; simpl in H; [|discriminate].
    injection H as <-. constructor; [exact Ea | apply IH; reflexivity].
Qed.

Lemma mapM_Raise {A B} (f : A -> result B) (l : list A) (e : exn) :
  mapM f l = Raise e -> exists a, In a l /\ f a = Raise e.
Proof.
  induction l as [|a l IH]; simpl; intros H; [discriminate|].
  destruct (f a) as [b|e'] eqn:Ea; simpl in H.
  - destruct (mapM f l) as [bs|e']; simpl in H; [discriminate|].
    destruct (IH H) as [a' [Hin Ha']]. exists a'. auto.
  - exists a. split; [left; reflexivity | congruence].
Qed.

Lemma mapM_Raise_intro {A B} (f : A -> result B) (l : list A) a e :
  In a l -> f a = Raise e -> exists e', mapM f l = Raise e'.
Proof.
  induction l as [|a' l IH]; simpl; intros Hin Ha; [contradiction|].
  destruct Hin as [-> | Hin].
  - rewrite Ha. simpl. eauto.
  - destruct (f a') as [b|e'']; simpl; [|eauto].
    destruct (IH Hin Ha) as [e' ->]. simpl. eauto.
Qed.

Lemma Forall2_In_r {A B} (R : A -> B -> Prop) l d b :
  Forall2 R l d -> In b d -> exists a, In a l /\ R a b.
Proof.
  induction 1 as [|a b' l d Hab _ IH]; simpl; intros Hin; [contradiction|].
  destruct Hin as [<- | Hin].
  - exists a. auto.
  - destruct (IH Hin) as [a' [? ?]]. exists a'. auto.
Qed.

Lemma to_numeric_Raise parse c e :
  to_numeric parse c = Raise e ->
  e = ValueError /\ exists s, c = Text s /\ parse s = None.
Proof.
  destruct c as [|x|s]; simpl; try discriminate.
  destruct (parse s) eqn:E; [discriminate|].
  intros H. injection H as <-. eauto.
Qed.

Lemma prepare_Raise parse l e :
  prepare parse l = Raise e ->
  e = ValueError /\
  exists s,
    (Sheet.est_energy_input_2_J_ml l = Text s \/
     Sheet.reduction_used_for_modelling l = Text s) /\
    parse s = None.
Proof.
  unfold prepare.
  destruct (to_numeric parse (Sheet.est_energy_input_2_J_ml l)) as [x|e1] eqn:E1;
    simpl.
  - destruct (to_numeric parse (Sheet.reduction_used_for_modelling l))
      as [y|e2] eqn:E2; simpl; [discriminate|].
    intros H. injection H as <-.
    destruct (to_numeric_Raise _ _ _ E2) as [-> [s [Hs Hp]]]. eauto.
  - intros H. injection H as <-.
    destruct (to_numeric_Raise _ _ _ E1) as [-> [s [Hs Hp]]]. eauto.
Qed.

Lemma prepare_Ok parse l r :
  prepare parse l = Ok r ->
  to_numeric parse (Sheet.est_energy_input_2_J_ml l)
    = Ok (Volumetric_energy_input r) /\
  to_numeric parse (Sheet.reduction_used_for_modelling l)
    = Ok (Decimal_microbial_reduction r) /\
  Matrix_category r = Sheet.matrix_category l /\
  DOI r = Sheet.doi l /\
  Food_pH r = fillna "NA" (Sheet.food_pH l) /\
  Microorganism r = Sheet.organism_grouped l /\
  Specific_matrix r = Sheet.food_product l /\
  study_below_equal_300 r = Sheet.study_below_equal_300 l.
Proof.
  unfold prepare.
  destruct (to_numeric parse (Sheet.est_energy_input_2_J_ml l)) as [x|e1];
    simpl; [|discriminate].
  destruct (to_numeric parse (Sheet.reduction_used_for_modelling l)) as [y|e2];
    simpl; [|discriminate].
  intros H. injection H as <-. simpl. repeat split.
Qed.

(** ** What the module body returns *)

(** The module body raises the conversion's exception with the globals
    untouched; otherwise it leaves the cleaned table and the values derived
    from it, and raises [IndexError] or assigns the layout according to
    whether the cleaned table is empty. *)
Lemma module_body_run parse sheet g0 :
  module_body parse sheet g0 =
  match mapM (prepare parse) sheet with
  | Raise e => (Raise e, g0)
  | Ok d =>
      match clean d with
      | [] => (Raise IndexError, loaded [] (app_layout g0))
      | r0 :: rest =>
          (Ok tt,
           loaded (r0 :: rest)
             (Some (layout (loaded (r0 :: rest) (app_layout g0))
                      (Matrix_category r0) (Microorganism r0))))
      end
  end.
Proof.
  unfold module_body, bind, lift, assign_df, get, put.
  destruct (mapM (prepare parse) sheet) as [d|e]; [|reflexivity]. simpl.
  fold (filter_energy_notna d).
  fold (filter_energy_le_300 (filter_energy_notna d)).
  fold (filter_reduction_notna (filter_energy_le_300 (filter_energy_notna d))).
  fold (filter_study_yes
          (filter_reduction_notna (filter_energy_le_300 (filter_energy_notna d)))).
  fold (clean d).
  destruct (clean d) as [|r0 rest]; reflexivity.
Qed.

(** X1: the module body raises [ValueError] exactly when some energy or
    reduction cell of the sheet is text that [pd.to_numeric] cannot read as
    a number. *)
Theorem module_body_ValueError parse sheet g0 :
  fst (module_body parse sheet g0) = Raise ValueError <->
  exists l s,
    In l sheet /\
    (Sheet.est_energy_input_2_J_ml l = Text s \/
     Sheet.reduction_used_for_modelling l = Text s) /\
    parse s = None.
Proof.
  rewrite module_body_run. split.
  - destruct (mapM (prepare parse) sheet) as [d|e] eqn:E.
    + destruct (clean d); discriminate.
    + intros _. destruct (mapM_Raise _ _ _ E) as [l [Hl Hp]].
      destruct (prepare_Raise _ _ _ Hp) as [_ [s [Hs Hn]]].
      exists l, s. auto.
  - intros [l [s [Hl [Hs Hn]]]].
    assert (Hp : prepare parse l = Raise ValueError).
    { unfold prepare.
      destruct (to_numeric parse (Sheet.est_energy_input_2_J_ml l))
        as [x|e] eqn:E1; simpl.
      - destruct Hs as [Hs | Hs].
        + rewrite Hs in E1. simpl in E1. rewrite Hn in E1. discriminate.
        + rewrite Hs. simpl. rewrite Hn. reflexivity.
      - destruct (to_numeric_Raise _ _ _ E1) as [-> _]. reflexivity. }
    destruct (mapM_Raise_intro _ _ _ _ Hl Hp) as [e' E]. rewrite E.
    destruct (mapM_Raise _ _ _ E) as [l' [_ Hp']].
    destruct (prepare_Raise _ _ _ Hp') as [-> _]. reflexivity.
Qed.

(** X2: when the cleaned table has a first row, the module body succeeds
    and assigns a layout in which the slider's selected interval is its
    full range, and each dropdown is multi-select, offers the distinct
    values of its column and starts on the value of the first cleaned row
    alone. *)
Theorem module_body_layout parse sheet g0 d r0 rest :
  mapM (prepare parse) sheet = Ok d ->
  clean d = r0 :: rest ->
  exists g lay,
    module_body parse sheet g0 = (Ok tt, g) /\
    df g = r0 :: rest /\
    app_layout g = Some lay /\
    In (RangeSlider "Volumetric energy input (kJ/L)-range-slider"
          (min_est_energy_input_2_J_ml_rounded g)
          (max_est_energy_input_2_J_ml_rounded g)
          [ min_est_energy_input_2_J_ml_rounded g;
            max_est_energy_input_2_J_ml_rounded g ]) lay /\
    In (Dropdown "Matrix category-dropdown"
          (map (fun i => (i, i)) (Series.unique (map Matrix_category (df g))))
          (Matrix_category r0) true) lay /\
    In (Dropdown "Microorganism-dropdown"
          (map (fun i => (i, i)) (Series.unique (map Microorganism (df g))))
          (Microorganism r0) true) lay.
Proof.
  intros H Hc. rewrite module_body_run, H, Hc.
  eexists. eexists. split; [reflexivity|]. simpl.
  split; [reflexivity|]. split; [reflexivity|].
  split; [|split].
  - do 3 right. left. reflexivity.
  - do 5 right. left. reflexivity.
  - do 7 right. left. reflexivity.
Qed.

Lemma module_body_layout_witness :
  exists g lay,
    module_body Sample.no_text Sample.sheet no_globals = (Ok tt, g) /\
    df g = [Sample.flagged 10 1 "yes"; Sample.flagged 50 2 "yes"] /\
    app_layout g = Some lay /\
    In (RangeSlider "Volumetric energy input (kJ/L)-range-slider"
          (min_est_energy_input_2_J_ml_rounded g)
          (max_est_energy_input_2_J_ml_rounded g)
          [ min_est_energy_input_2_J_ml_rounded g;
            max_est_energy_input_2_J_ml_rounded g ]) lay /\
    In (Dropdown "Matrix category-dropdown"
          (map (fun i => (i, i)) (Series.unique (map Matrix_category (df g))))
          (Matrix_category (Sample.flagged 10 1 "yes")) true) lay /\
    In (Dropdown "Microorganism-dropdown"
          (map (fun i => (i, i)) (Series.unique (map Microorganism (df g))))
          (Microorganism (Sample.flagged 10 1 "yes")) true) lay.
Proof.
  apply (module_body_layout Sample.no_text Sample.sheet no_globals
           Sample.prepared (Sample.flagged 10 1 "yes")
           [Sample.flagged 50 2 "yes"]);
    vm_compute; reflexivity.
Defined.

(** ** The selectable values *)

Lemma unique_from_NoDup (seen s : list string) :
  NoDup (Series.unique_from String.eqb seen s).
Proof.
  revert seen. induction s as [|x s IH]; intros seen; simpl; [constructor|].
  destruct (existsb (String.eqb x) seen); [apply IH|].
  constructor; [|apply IH].
  rewrite unique_from_In. simpl. tauto.
Qed.

Lemma module_body_loaded parse sheet g0 d :
  mapM (prepare parse) sheet = Ok d ->
  exists lay, snd (module_body parse sheet g0) = loaded (clean d) lay.
Proof.
  intros H. rewrite module_body_run, H.
  destruct (clean d) as [|r0 rest]; simpl; eauto.
Qed.

(** X3: once the sheet has converted, each list of dropdown options holds
    no value twice and holds exactly the values that occur in its column of
    the cleaned table. *)
Theorem dropdown_options parse sheet g0 d v :
  mapM (prepare parse) sheet = Ok d ->
  let g := snd (module_body parse sheet g0) in
  NoDup (matrix_category_values g) /\
  NoDup (organism_grouped_values g) /\
  (In v (matrix_category_values g) <->
   exists r, In r (df g) /\ Matrix_category r = v) /\
  (In v (organism_grouped_values g) <->
   exists r, In r (df g) /\ Microorganism r = v).
Proof.
  intros H g. destruct (module_body_loaded parse sheet g0 d H) as [lay E].
  unfold g. rewrite E. simpl.
  split; [apply unique_from_NoDup|]. split; [apply unique_from_NoDup|].
  rewrite !unique_In, !in_map_iff. split; split; intros [r [? ?]]; eauto.
Qed.

Lemma dropdown_options_witness :
  let g := snd (module_body Sample.no_text Sample.sheet no_globals) in
  NoDup (matrix_category_values g) /\
  NoDup (organism_grouped_values g) /\
  (In "Juice" (matrix_category_values g) <->
   exists r, In r (df g) /\ Matrix_category r = "Juice") /\
  (In "Juice" (organism_grouped_values g) <->
   exists r, In r (df g) /\ Microorganism r = "Juice").
Proof.
  apply (dropdown_options Sample.no_text Sample.sheet no_globals
           Sample.prepared "Juice").
  vm_compute. reflexivity.
Defined.

(** ** Missing pH *)

Lemma fillna_present value c : present (fillna value c) = true.
Proof.
  destruct c as [|x|s]; simpl; try reflexivity.
  destruct (is_nan x) eqn:E; simpl; [reflexivity | rewrite E; reflexivity].
Qed.

Lemma module_body_df_In parse sheet g0 d r :
  mapM (prepare parse) sheet = Ok d ->
  In r (df (snd (module_body parse sheet g0))) ->
  cleaned r = true /\ exists l, In l sheet /\ prepare parse l = Ok r.
Proof.
  intros H Hr. rewrite (module_body_df _ _ _ _ H), clean_filter in Hr.
  apply filter_In in Hr. destruct Hr as [Hd Hc]. split; [exact Hc|].
  apply (Forall2_In_r _ _ _ _ (mapM_Forall2 _ _ _ H) Hd).
Qed.



(** ** The cleaning filters *)

Lemma filter_idempotent {A} (p : A -> bool) (l : list A) :
  filter p (filter p l) = filter p l.
Proof.
  rewrite filter_filter. apply filter_ext. intros a. apply andb_diag.
Qed.

Lemma filter_energy_le_300_filter d :
  filter_energy_le_300 d =
  filter (fun r => (Volumetric_energy_input r <=? 300)%float) d.
Proof. unfold filter_energy_le_300. rewrite map_map. apply select_map. Qed.

Lemma filter_energy_notna_filter d :
  filter_energy_notna d =
  filter (fun r => Series.notna (Volumetric_energy_input r)) d.
Proof. unfold filter_energy_notna. rewrite map_map. apply select_map. Qed.

Lemma filter_reduction_notna_filter d :
  filter_reduction_notna d =
  filter (fun r => Series.notna (Decimal_microbial_reduction r)) d.
Proof. unfold filter_reduction_notna. rewrite map_map. apply select_map. Qed.

Lemma filter_study_yes_filter d :
  filter_study_yes d =
  filter (fun r => cell_eq_str (study_below_equal_300 r) "yes") d.
Proof. unfold filter_study_yes. rewrite map_map. apply select_map. Qed.

(** X5: the comparison with 300 already drops the rows whose energy is
    missing, NaN being below nothing: after it, the filter on present
    energies removes no row, and the cleaned table is what the other three
    filters give. *)
Theorem energy_notna_filter_redundant d :
  filter_energy_notna (filter_energy_le_300 d) = filter_energy_le_300 d /\
  clean d =
  filter_study_yes (filter_reduction_notna (filter_energy_le_300 d)).
Proof.
  assert (E : forall d',
    filter (fun r => Series.notna (Volumetric_energy_input r)
                     && (Volumetric_energy_input r <=? 300)%float) d' =
    filter (fun r => (Volumetric_energy_input r <=? 300)%float) d').
  { intros d'. apply filter_ext. intros r.
    destruct (Volumetric_energy_input r <=? 300)%float eqn:Hle;
      [|apply andb_false_r].
    destruct (leb_not_nan _ _ Hle) as [Hn _].
    unfold Series.notna. rewrite Hn. reflexivity. }
  split.
  - rewrite filter_energy_notna_filter, !filter_energy_le_300_filter,
      filter_filter.
    rewrite <- E. apply filter_ext. intros r. apply andb_comm.
  - unfold clean.
    rewrite (filter_energy_le_300_filter (filter_energy_notna d)),
      filter_energy_notna_filter, filter_filter, E,
      <- filter_energy_le_300_filter.
    reflexivity.
Qed.

(** X6: cleaning a cleaned table changes nothing, and the four filters
    give the same table when they are applied in the opposite order. *)
Theorem clean_idempotent_any_order d :
  clean (clean d) = clean d /\
  filter_energy_notna
    (filter_energy_le_300 (filter_reduction_notna (filter_study_yes d)))
  = clean d.
Proof.
  split.
  - rewrite !clean_filter. apply filter_idempotent.
  - rewrite clean_filter, filter_energy_notna_filter,
      filter_energy_le_300_filter, filter_reduction_notna_filter,
      filter_study_yes_filter, !filter_filter.
    apply filter_ext. intros r. unfold cleaned.
    destruct (Series.notna (Volumetric_energy_input r)),
      (Volumetric_energy_input r <=? 300)%float,
      (Series.notna (Decimal_microbial_reduction r)),
      (cell_eq_str (study_below_equal_300 r) "yes"); reflexivity.
Qed.

(** ** Renaming and conversion *)



(* ================================================================== *)
(** * Further properties of the callback *)

(** ** The range argument *)


Lemma filter_nil {A} (p : A -> bool) (l : list A) :
  (forall a, In a l -> p a = false) -> filter p l = [].
Proof.
  induction l as [|a l IH]; simpl; intros H; [reflexivity|].
  rewrite (H a) by (left; reflexivity). apply IH. intros b Hb. apply H. auto.
Qed.

(** X9: when the rounded lower bound is not below the rounded upper
    bound (the bounds are the wrong way round, or one of them is NaN), no
    row passes the range test and the filtered set is empty. *)
Theorem inverted_range_empty d lo hi cats orgs :
  (Float64.round1 lo <=? Float64.round1 hi)%float = false ->
  filtered_df d lo hi cats orgs = [].
Proof.
  intros H. rewrite filtered_df_filter. apply filter_nil. intros r _.
  unfold keep, Series.between1.
  destruct (Float64.round1 lo <=?
            Float64.np_round1 (Volumetric_energy_input r))%float eqn:E1;
    [|reflexivity].
  destruct (Float64.np_round1 (Volumetric_energy_input r) <=?
            Float64.round1 hi)%float eqn:E2; [|reflexivity].
  rewrite (leb_trans _ _ _ E1 E2) in H. discriminate.
Qed.

Lemma inverted_range_empty_witness :
  filtered_df [Sample.r104; Sample.r105; Sample.r200] 2 1
    (Many ["Juice"; "Milk"]) (Many ["E. coli"; "L. innocua"]) = [] /\
  filtered_df [Sample.r104; Sample.r105; Sample.r200] nan 2
    (Many ["Juice"; "Milk"]) (Many ["E. coli"; "L. innocua"]) = [].
Proof.
  split.
  - apply (inverted_range_empty [Sample.r104; Sample.r105; Sample.r200] 2 1).
    vm_compute. reflexivity.
  - apply (inverted_range_empty [Sample.r104; Sample.r105; Sample.r200] nan 2).
    vm_compute. reflexivity.
Defined.

(** ** The selections *)

(** X10: the filtered set depends on a selection only through the set of
    its values: a bare value or a one-element list, repeated values and a
    different order all give the same rows. *)
Theorem selection_as_set d lo hi A A' B B' :
  (forall v, In v (as_list A) <-> In v (as_list A')) ->
  (forall v, In v (as_list B) <-> In v (as_list B')) ->
  filtered_df d lo hi A B = filtered_df d lo hi A' B'.
Proof.
  intros HA HB. rewrite !filtered_df_filter. apply filter_ext. intros r.
  unfold keep.
  assert (E : forall X X' x,
    (forall v, In v X <-> In v X') -> Series.isin1 X x = Series.isin1 X' x).
  { intros X X' x HX.
    destruct (Series.isin1 X x) eqn:E1, (Series.isin1 X' x) eqn:E2;
      try reflexivity.
    - apply isin1_In, HX, isin1_In in E1. congruence.
    - apply isin1_In, HX, isin1_In in E2. congruence. }
  rewrite (E _ _ _ HA), (E _ _ _ HB). reflexivity.
Qed.

Lemma selection_as_set_witness :
  filtered_df [Sample.r104; Sample.r105; Sample.r200] 1 2
    (One "Juice") (Many ["E. coli"; "L. innocua"])
  = filtered_df [Sample.r104; Sample.r105; Sample.r200] 1 2
      (Many ["Juice"; "Juice"]) (Many ["L. innocua"; "E. coli"; "E. coli"]).
Proof.
  apply (selection_as_set [Sample.r104; Sample.r105; Sample.r200] 1 2
           (One "Juice") (Many ["Juice"; "Juice"])
           (Many ["E. coli"; "L. innocua"])
           (Many ["L. innocua"; "E. coli"; "E. coli"]));
    intros v; simpl; tauto.
Defined.

(** ** Rows are judged one by one *)

(** X11: whether a row is kept does not depend on the other rows of the
    table: the filtered set of two tables put end to end is the filtered
    set of the first followed by that of the second, so rows keep their
    order and none is added. *)
Theorem filtered_df_app (d1 d2 : DataFrame) lo hi cats orgs :
  filtered_df (d1 ++ d2)%list lo hi cats orgs =
  (filtered_df d1 lo hi cats orgs ++ filtered_df d2 lo hi cats orgs)%list /\
  (List.length (filtered_df (d1 ++ d2)%list lo hi cats orgs)
   <= List.length d1 + List.length d2)%nat.
Proof.
  rewrite !filtered_df_filter, filter_app. split; [reflexivity|].
  rewrite length_app.
  pose proof (filter_length_le (keep lo hi cats orgs) d1).
  pose proof (filter_length_le (keep lo hi cats orgs) d2). lia.
Qed.

(* ================================================================== *)
(** * From the sheet to the chart *)

Lemma module_body_Ok parse sheet g0 g :
  module_body parse sheet g0 = (Ok tt, g) ->
  exists d r0 rest,
    mapM (prepare parse) sheet = Ok d /\
    clean d = r0 :: rest /\
    g = loaded (r0 :: rest)
          (Some (layout (loaded (r0 :: rest) (app_layout g0))
                   (Matrix_category r0) (Microorganism r0))).
Proof.
  rewrite module_body_run.
  destruct (mapM (prepare parse) sheet) as [d|e]; [|discriminate].
  destruct (clean d) as [|r0 rest] eqn:Ec; [discriminate|].
  intros H. injection H as <-. exists d, r0, rest. auto.
Qed.

Lemma module_body_Ok_df parse sheet g0 g r :
  module_body parse sheet g0 = (Ok tt, g) ->
  In r (df g) ->
  cleaned r = true /\ exists l, In l sheet /\ prepare parse l = Ok r.
Proof.
  intros H Hr. destruct (module_body_Ok _ _ _ _ H) as [d [r0 [rest [Hd _]]]].
  apply (module_body_df_In parse sheet g0 d r Hd).
  rewrite H. exact Hr.
Qed.

Lemma update_bar_chart_Ok range cats orgs g fig :
  fst (update_bar_chart range cats orgs g) = Ok fig ->
  exists lo hi rest,
    range = lo :: hi :: rest /\
    fig = chart_of (filtered_df (df g) lo hi cats orgs).
Proof.
  destruct range as [|lo [|hi rest]]; simpl; try discriminate.
  intros H. injection H as <-. exists lo, hi, rest. auto.
Qed.

(** X12: after a successful start, every marker the callback draws, for
    any control values, shows a row of the loaded table: its energy is
    present and at most 300, its reduction is present and its pH is
    filled. *)
Theorem markers_are_cleaned_rows parse sheet g0 g range cats orgs fig p :
  module_body parse sheet g0 = (Ok tt, g) ->
  fst (update_bar_chart range cats orgs g) = Ok fig ->
  In p (fig_points fig) ->
  is_nan (pt_x p) = false /\
  (pt_x p <=? 300)%float = true /\
  is_nan (pt_y p) = false /\
  present (pt_Food_pH p) = true /\
  exists r,
    In r (df g) /\
    pt_x p = Volumetric_energy_input r /\
    pt_y p = Decimal_microbial_reduction r /\
    pt_DOI p = DOI r /\
    pt_Matrix_category p = Matrix_category r /\
    pt_Microorganism p = Microorganism r /\
    pt_Specific_matrix p = Specific_matrix r.
Proof.
  intros Hm Hc Hp.
  destruct (update_bar_chart_Ok _ _ _ _ _ Hc) as [lo [hi [rest [_ ->]]]].
  simpl in Hp. apply in_map_iff in Hp. destruct Hp as [r [<- Hr]].
  rewrite filtered_df_filter in Hr. apply filter_In in Hr.
  destruct Hr as [Hr _].
  destruct (module_body_Ok_df _ _ _ _ _ Hm Hr) as [Hcl [l [_ Hl]]].
  apply cleaned_spec in Hcl. destruct Hcl as [H1 [H2 [H3 _]]].
  apply prepare_Ok in Hl. destruct Hl as [_ [_ [_ [_ [HpH _]]]]].
  simpl. rewrite HpH.
  repeat split; try assumption; [apply fillna_present|].
  exists r. repeat split. exact Hr.
Qed.

Lemma markers_are_cleaned_rows_witness :
  let g := snd (module_body Sample.no_text Sample.sheet no_globals) in
  let p := px.to_point scatter_kwargs
             [Sample.flagged 10 1 "yes"; Sample.flagged 50 2 "yes"]
             (Sample.flagged 50 2 "yes") in
  is_nan (pt_x p) = false /\
  (pt_x p <=? 300)%float = true /\
  is_nan (pt_y p) = false /\
  present (pt_Food_pH p) = true /\
  exists r,
    In r (df g) /\
    pt_x p = Volumetric_energy_input r /\
    pt_y p = Decimal_microbial_reduction r /\
    pt_DOI p = DOI r /\
    pt_Matrix_category p = Matrix_category r /\
    pt_Microorganism p = Microorganism r /\
    pt_Specific_matrix p = Specific_matrix r.
Proof.
  intros g p.
  apply (markers_are_cleaned_rows Sample.no_text Sample.sheet no_globals g
           [0; 100]%float (One "Juice") (One "E. coli")
           (chart_of [Sample.flagged 10 1 "yes"; Sample.flagged 50 2 "yes"]) p).
  - vm_compute. reflexivity.
  - vm_compute. reflexivity.
  - vm_compute. auto.
Defined.

Lemma observations_cleaned (d : DataFrame) :
  (forall r, In r d -> cleaned r = true) ->
  List.length (px.observations d) = List.length d.
Proof.
  intros H. unfold px.observations. rewrite length_map.
  f_equal. apply filter_id_forallb, forallb_forall. intros r Hr.
  apply H, cleaned_spec in Hr. destruct Hr as [H1 [_ [H3 _]]].
  unfold Series.notna. rewrite H1, H3. reflexivity.
Qed.

(** X13: after a successful start the chart carries a regression exactly
    when it shows at least two markers, and never more than one. *)
Theorem trend_iff_two_markers parse sheet g0 g range cats orgs fig :
  module_body parse sheet g0 = (Ok tt, g) ->
  fst (update_bar_chart range cats orgs g) = Ok fig ->
  (fig_trendlines fig <> [] <-> (2 <= List.length (fig_points fig))%nat) /\
  (List.length (fig_trendlines fig) <= 1)%nat.
Proof.
  intros Hm Hc.
  destruct (update_bar_chart_Ok _ _ _ _ _ Hc) as [lo [hi [rest [_ ->]]]].
  rewrite chart_of_trendlines. simpl fig_points. rewrite length_map.
  rewrite observations_cleaned.
  - destruct (Nat.ltb_spec 1
                (List.length (filtered_df (df g) lo hi cats orgs))) as [L|L];
      simpl; split; try lia; split; (lia || discriminate || congruence).
  - intros r Hr. rewrite filtered_df_filter in Hr. apply filter_In in Hr.
    apply (module_body_Ok_df _ _ _ _ _ Hm (proj1 Hr)).
Qed.

Lemma trend_iff_two_markers_witness :
  let fig := chart_of [Sample.flagged 10 1 "yes"; Sample.flagged 50 2 "yes"] in
  (fig_trendlines fig <> [] <-> (2 <= List.length (fig_points fig))%nat) /\
  (List.length (fig_trendlines fig) <= 1)%nat.
Proof.
  intros fig.
  apply (trend_iff_two_markers Sample.no_text Sample.sheet no_globals
           (snd (module_body Sample.no_text Sample.sheet no_globals))
           [0; 100]%float (One "Juice") (One "E. coli") fig);
    vm_compute; reflexivity.
Defined.

(** ** The slider's bounds *)

Section SliderBounds.

#[local] Open Scope float_scope.

Lemma fold_min2_mem (s : list float) (a : float) :
  fold_left Series.min2 s a = a \/ In (fold_left Series.min2 s a) s.
Proof.
  revert a. induction s as [|y s IH]; intros a; simpl; [auto|].
  destruct (IH (Series.min2 a y)) as [E | Hin]; [|auto].
  rewrite E. unfold Series.min2.
  destruct (is_nan a); [auto|]. destruct (is_nan y); [auto|].
  destruct (y <? a); auto.
Qed.

Lemma fold_max2_mem (s : list float) (a : float) :
  fold_left Series.max2 s a = a \/ In (fold_left Series.max2 s a) s.
Proof.
  revert a. induction s as [|y s IH]; intros a; simpl; [auto|].
  destruct (IH (Series.max2 a y)) as [E | Hin]; [|auto].
  rewrite E. unfold Series.max2.
  destruct (is_nan a); [auto|]. destruct (is_nan y); [auto|].
  destruct (a <? y); auto.
Qed.

Lemma Series_min_mem (x : float) (s : list float) :
  In (Series.min (x :: s)) (x :: s).
Proof.
  unfold Series.min. simpl.
  change (Series.min2 nan x) with x.
  destruct (fold_min2_mem s x) as [-> | H]; simpl; auto.
Qed.

Lemma Series_max_mem (x : float) (s : list float) :
  In (Series.max (x :: s)) (x :: s).
Proof.
  unfold Series.max. simpl.
  change (Series.max2 nan x) with x.
  destruct (fold_max2_mem s x) as [-> | H]; simpl; auto.
Qed.

(** X14: after a successful start, the slider's lower and upper bounds are
    the rounded energies of two rows of the loaded table, the first with
    the least and the second with the greatest energy of the table. *)
Theorem slider_bounds_from_rows parse sheet g0 g :
  module_body parse sheet g0 = (Ok tt, g) ->
  exists rmin rmax,
    In rmin (df g) /\ In rmax (df g) /\
    min_est_energy_input_2_J_ml_rounded g
      = Float64.np_round1 (Volumetric_energy_input rmin) /\
    max_est_energy_input_2_J_ml_rounded g
      = Float64.np_round1 (Volumetric_energy_input rmax) /\
    forall r, In r (df g) ->
      (Volumetric_energy_input rmin <=? Volumetric_energy_input r) = true /\
      (Volumetric_energy_input r <=? Volumetric_energy_input rmax) = true.
Proof.
  intros Hm.
  destruct (module_body_Ok _ _ _ _ Hm) as [d [r0 [rest [Hd [Hc Hg]]]]].
  set (table := r0 :: rest) in *.
  assert (Hnan : forall y, In y (map Volumetric_energy_input table) ->
                           is_nan y = false).
  { intros y Hy. apply in_map_iff in Hy. destruct Hy as [r [<- Hr]].
    assert (Hr' : In r (df g)) by (rewrite Hg; exact Hr).
    destruct (module_body_Ok_df _ _ _ _ _ Hm Hr') as [Hcl _].
    apply cleaned_spec in Hcl. tauto. }
  pose proof (Series_min_mem (Volumetric_energy_input r0)
                (map Volumetric_energy_input rest)) as Hmin.
  pose proof (Series_max_mem (Volumetric_energy_input r0)
                (map Volumetric_energy_input rest)) as Hmax.
  change (Volumetric_energy_input r0 :: map Volumetric_energy_input rest)
    with (map Volumetric_energy_input table) in Hmin, Hmax.
  apply in_map_iff in Hmin. destruct Hmin as [rmin [Emin Hrmin]].
  apply in_map_iff in Hmax. destruct Hmax as [rmax [Emax Hrmax]].
  exists rmin, rmax. rewrite Hg. simpl df.
  split; [exact Hrmin|]. split; [exact Hrmax|].
  split; [simpl; fold table; rewrite Emin; reflexivity|].
  split; [simpl; fold table; rewrite Emax; reflexivity|].
  intros r Hr. rewrite Emin, Emax. split.
  - apply Series_min_le; [exact Hnan | apply in_map, Hr].
  - apply Series_max_ge; [exact Hnan | apply in_map, Hr].
Qed.

Lemma slider_bounds_from_rows_witness :
  let g := snd (module_body Sample.no_text Sample.sheet no_globals) in
  exists rmin rmax,
    In rmin (df g) /\ In rmax (df g) /\
    min_est_energy_input_2_J_ml_rounded g
      = Float64.np_round1 (Volumetric_energy_input rmin) /\
    max_est_energy_input_2_J_ml_rounded g
      = Float64.np_round1 (Volumetric_energy_input rmax) /\
    forall r, In r (df g) ->
      (Volumetric_energy_input rmin <=? Volumetric_energy_input r) = true /\
      (Volumetric_energy_input r <=? Volumetric_energy_input rmax) = true.
Proof.
  intros g.
  apply (slider_bounds_from_rows Sample.no_text Sample.sheet no_globals g).
  vm_compute. reflexivity.
Defined.

End SliderBounds.

(** ** Widening the range *)

(** X15: for fixed selections, a range whose rounded bounds enclose the
    rounded bounds of another keeps every row the other keeps. *)
Theorem filtered_df_range_monotone d lo hi lo' hi' cats orgs :
  (Float64.round1 lo' <=? Float64.round1 lo)%float = true ->
  (Float64.round1 hi <=? Float64.round1 hi')%float = true ->
  incl (filtered_df d lo hi cats orgs) (filtered_df d lo' hi' cats orgs).
Proof.
  intros Hlo Hhi r. rewrite !filtered_df_filter, !filter_In, !keep_spec.
  intros [Hr [[H1 H2] Hsel]]. split; [exact Hr|]. split; [|exact Hsel].
  split; eapply leb_trans; eassumption.
Qed.

Lemma filtered_df_range_monotone_witness :
  incl
    (filtered_df [Sample.r104; Sample.r105; Sample.r200] 1 1.5
       (Many ["Juice"; "Milk"]) (Many ["E. coli"; "L. innocua"]))
    (filtered_df [Sample.r104; Sample.r105; Sample.r200] 0.5 2
       (Many ["Juice"; "Milk"]) (Many ["E. coli"; "L. innocua"])).
Proof.
  apply (filtered_df_range_monotone
           [Sample.r104; Sample.r105; Sample.r200] 1 1.5 0.5 2);
    vm_compute; reflexivity.
Defined.
